(** * Dual-store memory manager: a shallow embedding and its properties

    The development follows [dual_store_memory_example.py].  The class
    [DualStoreMemoryManager] holds references to two store objects and its
    five [async] methods call into them.  The stores themselves are
    supplied by the caller, so the methods are embedded as programs over
    the three store requests they issue ([put], [get], [search]) and are
    run against any implementation of the store interface. *)

From Stdlib Require Import ZArith String List DecimalString.
From stdpp Require Import gmap strings list fin_maps functions.

#[local] Set Warnings "-register-all".
#[local] Open Scope string_scope.

(** ** Python values *)

(** The values that travel through the manager: preference and
    conversation dictionaries, their fields, and the defaults the code
    fills in ([""], [[]], [None], ["neutral"], ["unknown"]).  A [dict] is
    a finite map with string keys, so two dictionaries with the same
    entries are equal, as in Python. *)
Inductive PyVal : Type :=
| PyNone
| PyBool (b : bool)
| PyInt (z : Z)
| PyStr (s : string)
| PyList (l : list PyVal)
| PyDict (d : gmap string PyVal).

(** [d.get(key, dflt)]: the entry under [key], or [dflt] when the key is
    absent.  A key that is present with value [None] yields [None]. *)
Definition dict_get (d : gmap string PyVal) (key : string) (dflt : PyVal) : PyVal :=
  default dflt (d !! key).

(** [d.get(key)], whose default is [None]. *)
Definition dict_get_none (d : gmap string PyVal) (key : string) : PyVal :=
  dict_get d key PyNone.

(** ** Store objects *)

(** Stores are objects held by reference; the same object may be handed
    to the manager twice. *)
Definition StoreRef : Type := nat.

#[global] Instance StoreRef_eq_dec : EqDecision StoreRef := Nat.eq_dec.

(** What [get] and [search] answer with: an object exposing [value]
    (together with the coordinates it was stored under). *)
Record Item : Type := mkItem {
  item_namespace : list string;
  item_key : string;
  value : PyVal
}.

(** The three requests the manager sends to a store object. *)
Inductive Request : Type :=
| Put (st : StoreRef) (namespace : list string) (key : string) (v : PyVal)
| Get (st : StoreRef) (namespace : list string) (key : string)
| Search (st : StoreRef) (namespace : list string) (query : string) (limit : Z).

(** What the awaited request evaluates to. *)
Definition Response (c : Request) : Type :=
  match c with
  | Put _ _ _ _ => unit
  | Get _ _ _ => option Item
  | Search _ _ _ _ => list Item
  end.

(** ** Asynchronous methods *)

(** An [async def] body: it either returns, or awaits a store request and
    continues with the answer. *)
Inductive Async (R : Type) : Type :=
| Return (r : R)
| Await (c : Request) (k : Response c -> Async R).

Arguments Return {R} r.
Arguments Await {R} c k.

Fixpoint bind {A B : Type} (p : Async A) (f : A -> Async B) : Async B :=
  match p with
  | Return a => f a
  | Await c k => Await c (fun x => bind (k x) f)
  end.

#[global] Instance Async_ret : MRet Async := @Return.
#[global] Instance Async_bind : MBind Async := fun A B f p => bind p f.

(** [await store.request(...)]. *)
Definition await (c : Request) : Async (Response c) := Await c Return.

(** ** The manager *)

(** [__init__(self, regular_store, semantic_store=None)].  A store object
    defines neither [__bool__] nor [__len__], so the tests
    [if not self.semantic_store] and [if self.semantic_store] tell [None]
    from a store; likewise [item.value if item else {}] tells [None] from
    an item. *)
Record DualStoreMemoryManager : Type := mkManager {
  regular_store : StoreRef;
  semantic_store : option StoreRef
}.

(** The rendering of a value inside an f-string, [format(v, "")].  It is
    [str(v)] for the built-in types: a string is inserted as it is, an
    integer in decimal.  The rendering of a list or a dictionary goes
    through [repr] of the elements, which is not modelled; it is the
    parameter [container_repr]. *)
Definition py_format (container_repr : PyVal -> string) (v : PyVal) : string :=
  match v with
  | PyNone => "None"
  | PyBool true => "True"
  | PyBool false => "False"
  | PyInt z => NilZero.string_of_int (Z.to_int z)
  | PyStr s => s
  | PyList _ | PyDict _ => container_repr v
  end.

Section Manager.

Variable container_repr : PyVal -> string.

(** [store_user_preferences(self, assistant_id, preferences)] *)
Definition store_user_preferences (self : DualStoreMemoryManager)
    (assistant_id : string) (preferences : gmap string PyVal) : Async unit :=
  await (Put (regular_store self)
             ["user_data"; assistant_id]
             "preferences"
             (PyDict preferences)).

(** [get_user_preferences(self, assistant_id)] *)
Definition get_user_preferences (self : DualStoreMemoryManager)
    (assistant_id : string) : Async PyVal :=
  item ← await (Get (regular_store self) ["user_data"; assistant_id] "preferences");
  mret (match item with
        | Some it => value it
        | None => PyDict ∅
        end).

(** The dictionary built at lines 41-46. *)
Definition semantic_data (conversation : gmap string PyVal) : gmap string PyVal :=
  <["sentiment" := dict_get conversation "sentiment" (PyStr "neutral")]>
  (<["timestamp" := dict_get_none conversation "timestamp"]>
  (<["topics" := dict_get conversation "topics" (PyList [])]>
  (<["text" := dict_get conversation "text" (PyStr "")]> ∅))).

(** The key built at line 50. *)
Definition conversation_key (conversation : gmap string PyVal) : string :=
  "conv_" +:+ py_format container_repr (dict_get conversation "id" (PyStr "unknown")).

(** [store_conversation_for_search(self, assistant_id, conversation)] *)
Definition store_conversation_for_search (self : DualStoreMemoryManager)
    (assistant_id : string) (conversation : gmap string PyVal) : Async unit :=
  match semantic_store self with
  | None => mret tt
  | Some sem =>
      await (Put sem
                 ["conversations"; assistant_id]
                 (conversation_key conversation)
                 (PyDict (semantic_data conversation)))
  end.

(** [search_similar_conversations(self, assistant_id, query, limit)] *)
Definition search_similar_conversations (self : DualStoreMemoryManager)
    (assistant_id : string) (query : string) (limit : Z) : Async (list PyVal) :=
  match semantic_store self with
  | None => mret []
  | Some sem =>
      results ← await (Search sem ["conversations"; assistant_id] query limit);
      mret (map value results)
  end.

(** The default of the [limit] parameter. *)
Definition default_limit : Z := 3.

(** [get_context_for_response(self, assistant_id, user_query)] *)
Definition get_context_for_response (self : DualStoreMemoryManager)
    (assistant_id : string) (user_query : string) : Async (gmap string PyVal) :=
  preferences ← get_user_preferences self assistant_id;
  similar_conversations ←
    match semantic_store self with
    | Some _ => search_similar_conversations self assistant_id user_query 2
    | None => mret []
    end;
  mret (<["query" := PyStr user_query]>
       (<["relevant_conversations" := PyList similar_conversations]>
       (<["user_preferences" := preferences]> ∅))).

(** The context operation as the specification words it: the preference
    lookup followed by the similarity search with limit 2, and nothing
    else. *)
Definition getContext_sequenced (self : DualStoreMemoryManager)
    (entityId : string) (query : string) : Async (gmap string PyVal) :=
  preferences ← get_user_preferences self entityId;
  relevant ← search_similar_conversations self entityId query 2;
  mret (<["query" := PyStr query]>
       (<["relevant_conversations" := PyList relevant]>
       (<["user_preferences" := preferences]> ∅))).

End Manager.

(** ** The store interface and the execution of a method *)

(** The contract of a store object: [put(namespace, key, value)],
    [get(namespace, key)] and [search(namespace, query, limit)].  The
    manager relies on nothing else. *)
Class Store (S : Type) : Type := {
  store_put : list string -> string -> PyVal -> S -> S;
  store_get : list string -> string -> S -> option Item;
  store_search : list string -> string -> Z -> S -> list Item
}.

(** What is left behind when a method has run: the value it returned, the
    store objects, and the requests it sent, in order. *)
Record Outcome (S R : Type) : Type := mkOutcome {
  result : R;
  final : StoreRef -> S;
  calls : list Request
}.

Arguments mkOutcome {S R} result final calls.
Arguments result {S R} o.
Arguments final {S R} o.
Arguments calls {S R} o.

(** A store object answers one request. *)
Definition serve {S : Type} `{Store S} (c : Request) (w : StoreRef -> S)
    : Response c * (StoreRef -> S) :=
  match c return Response c * (StoreRef -> S) with
  | Put st ns k v => (tt, alter (store_put ns k v) st w)
  | Get st ns k => (store_get ns k (w st), w)
  | Search st ns q lim => (store_search ns q lim (w st), w)
  end.

Fixpoint run {S : Type} `{Store S} {R : Type} (p : Async R) (w : StoreRef -> S)
    : Outcome S R :=
  match p with
  | Return r => mkOutcome r w []
  | Await c k =>
      let o := run (k (fst (serve c w))) (snd (serve c w)) in
      mkOutcome (result o) (final o) (c :: calls o)
  end.

(** ** Properties of requests and of whole methods *)

(** The namespace-and-key pair a request writes to. *)
Definition write_target (c : Request) : option (list string * string) :=
  match c with
  | Put _ ns k _ => Some (ns, k)
  | Get _ _ _ | Search _ _ _ _ => None
  end.

(** The pairs written during a run, in order. *)
Definition writes {S R : Type} (o : Outcome S R) : list (list string * string) :=
  omap write_target (calls o).

Definition is_write (c : Request) : bool :=
  match c with
  | Put _ _ _ _ => true
  | Get _ _ _ | Search _ _ _ _ => false
  end.

Definition request_namespace (c : Request) : list string :=
  match c with
  | Put _ ns _ _ | Get _ ns _ | Search _ ns _ _ => ns
  end.

(** [every_request P p]: each request [p] can send, whatever the stores
    answer, satisfies [P]. *)
Fixpoint every_request {R : Type} (P : Request -> Prop) (p : Async R) : Prop :=
  match p with
  | Return _ => True
  | Await c k => P c /\ forall x, every_request P (k x)
  end.

(** The namespaces that belong to an entity. *)
Definition namespace_of_entity (assistant_id : string) (ns : list string) : Prop :=
  ns = ["user_data"; assistant_id] \/ ns = ["conversations"; assistant_id].

(** ** Assumptions on a store implementation, named as the claims name them *)

Section StoreLaws.

Context (S : Type) `{Store S}.

(** [get] returns the last value [put] under the same namespace and key. *)
Definition get_returns_last_put : Prop :=
  forall (s : S) ns k v,
    exists it, store_get ns k (store_put ns k v s) = Some it /\ value it = v.

(** [put] leaves every other namespace-and-key pair as it was. *)
Definition put_frames_other_keys : Prop :=
  forall (s : S) ns k v ns' k',
    (ns', k') <> (ns, k) ->
    store_get ns' k' (store_put ns k v s) = store_get ns' k' s.

(** [search] with limit [n] returns at most [n] results. *)
Definition search_respects_limit (n : Z) : Prop :=
  forall (s : S) ns q, (Z.of_nat (length (store_search ns q n s)) <= n)%Z.

End StoreLaws.

(** ** An in-memory store *)

(** A store that keeps its items in a list, newest first.  [put] replaces
    the item under the same namespace and key; [search] returns the first
    [limit] items of the namespace. *)
Module InMemoryStore.

Definition t : Type := list Item.

Definition at_key (ns : list string) (k : string) (it : Item) : bool :=
  bool_decide (item_namespace it = ns /\ item_key it = k).

Definition put (ns : list string) (k : string) (v : PyVal) (s : t) : t :=
  mkItem ns k v :: List.filter (fun it => negb (at_key ns k it)) s.

Definition get (ns : list string) (k : string) (s : t) : option Item :=
  List.find (at_key ns k) s.

Definition search (ns : list string) (q : string) (limit : Z) (s : t) : list Item :=
  take (Z.to_nat limit)
       (List.filter (fun it => bool_decide (item_namespace it = ns)) s).

#[global] Instance store : Store t :=
  {| store_put := put; store_get := get; store_search := search |}.

Definition empty : StoreRef -> t := fun _ => [].

End InMemoryStore.

(** A rendering of containers to run the examples with; none of them
    renders a container. *)
Definition no_container_repr : PyVal -> string := fun _ => "[...]".

(** A semantic store object holding three conversations of ["e1"] and one
    of ["e2"]. *)
Definition three_conversations : StoreRef -> InMemoryStore.t :=
  <[1 := [mkItem ["conversations"; "e1"] "conv_a" (PyDict {[ "text" := PyStr "alpha" ]});
          mkItem ["conversations"; "e2"] "conv_x" (PyDict {[ "text" := PyStr "other" ]});
          mkItem ["conversations"; "e1"] "conv_b" (PyDict {[ "text" := PyStr "beta" ]});
          mkItem ["conversations"; "e1"] "conv_c" (PyDict {[ "text" := PyStr "gamma" ]})]]>
  InMemoryStore.empty.

(** * Lemmas *)

(** ** Running a sequence *)

Section RunFacts.

Context {S : Type} `{Store S}.

(** Running [p] and then [f] is running [f] where [p] stopped. *)
Lemma run_bind {A B : Type} (p : Async A) (f : A -> Async B) (w : StoreRef -> S) :
  run (bind p f) w =
  mkOutcome (result (run (f (result (run p w))) (final (run p w))))
            (final (run (f (result (run p w))) (final (run p w))))
            (calls (run p w) ++ calls (run (f (result (run p w))) (final (run p w)))).
Proof.
  revert w. induction p as [a | c k IH]; intros w; simpl.
  - by destruct (run (f a) w).
  - by rewrite IH.
Qed.

Lemma every_request_bind {A B : Type} (P : Request -> Prop)
    (p : Async A) (f : A -> Async B) :
  every_request P p -> (forall a, every_request P (f a)) ->
  every_request P (bind p f).
Proof.
  intros Hp Hf. induction p as [a | c k IH]; simpl in *; [done|].
  destruct Hp as [Hc Hk]. split; [done|]. intros x. by apply IH.
Qed.

End RunFacts.

(** ** The in-memory store satisfies the assumptions *)

Module InMemoryStoreFacts.
Import InMemoryStore.

Lemma at_key_refl ns k v : at_key ns k (mkItem ns k v) = true.
Proof. unfold at_key. by rewrite bool_decide_eq_true. Qed.

Lemma get_put_same : get_returns_last_put t.
Proof.
  intros s ns k v. exists (mkItem ns k v). split; [|done].
  simpl. unfold get, put. simpl. by rewrite at_key_refl.
Qed.

Lemma find_filter_other ns k ns' k' (s : t) :
  (ns', k') <> (ns, k) ->
  List.find (at_key ns' k') (List.filter (fun it => negb (at_key ns k it)) s)
  = List.find (at_key ns' k') s.
Proof.
  intros Hne. induction s as [| it s IH]; [done|]. simpl.
  destruct (at_key ns k it) eqn:E; simpl.
  - destruct (at_key ns' k' it) eqn:E'; [|done].
    unfold at_key in E, E'.
    apply bool_decide_eq_true in E as [? ?], E' as [? ?]. congruence.
  - by rewrite IH.
Qed.

Lemma get_put_other : put_frames_other_keys t.
Proof.
  intros s ns k v ns' k' Hne. simpl. unfold get, put. simpl.
  destruct (at_key ns' k' (mkItem ns k v)) eqn:E.
  - unfold at_key in E. apply bool_decide_eq_true in E as [? ?].
    simpl in *. congruence.
  - by apply find_filter_other.
Qed.

Lemma search_limit (n : Z) : (0 <= n)%Z -> search_respects_limit t n.
Proof.
  intros Hn s ns q. simpl. unfold search.
  rewrite length_take. lia.
Qed.

End InMemoryStoreFacts.

(** * The manager's properties *)

Section Preferences.

Context {S : Type} `{Store S}.

(** What [get_user_preferences] returns, in terms of the store's answer. *)
Lemma get_user_preferences_result self assistant_id (w : StoreRef -> S) :
  result (run (get_user_preferences self assistant_id) w) =
  match store_get ["user_data"; assistant_id] "preferences" (w (regular_store self)) with
  | Some it => value it
  | None => PyDict ∅
  end.
Proof. reflexivity. Qed.

(** C1. For every entity id and every preferences mapping,
    [get_user_preferences] called after [store_user_preferences] on the
    same entity id returns exactly the mapping that was stored, provided
    the structured store's [get] returns the last value [put] under the
    same namespace and key. *)
Theorem get_after_store_preferences self assistant_id preferences (w : StoreRef -> S) :
  get_returns_last_put S ->
  result (run (store_user_preferences self assistant_id preferences;;
               get_user_preferences self assistant_id) w)
  = PyDict preferences.
Proof.
  intros Hlast. simpl.
  rewrite fn_lookup_alter.
  destruct (Hlast (w (regular_store self)) ["user_data"; assistant_id]
              "preferences" (PyDict preferences)) as (it & Hget & Hval).
  by rewrite Hget.
Qed.

(** C5. For every entity id for which the structured store's [get]
    returns no record under namespace [user_data, entityId] and key
    ["preferences"], [get_user_preferences] returns an empty mapping. *)
Theorem get_preferences_without_record self assistant_id (w : StoreRef -> S) :
  store_get ["user_data"; assistant_id] "preferences" (w (regular_store self)) = None ->
  result (run (get_user_preferences self assistant_id) w) = PyDict ∅.
Proof. intros Hnone. rewrite get_user_preferences_result. by rewrite Hnone. Qed.

End Preferences.

Section NoSemanticStore.

Context {S : Type} `{Store S}.
Variable container_repr : PyVal -> string.

(** C2. When the manager is constructed with no semantic store, for
    every entity id and every input [store_conversation_for_search]
    sends no request to any store and returns nothing, and
    [search_similar_conversations] returns the empty sequence (also
    without a request). *)
Theorem no_semantic_store_is_noop self assistant_id conversation query limit
    (w : StoreRef -> S) :
  semantic_store self = None ->
  store_conversation_for_search container_repr self assistant_id conversation = Return tt
  /\ calls (run (store_conversation_for_search container_repr self assistant_id conversation) w) = []
  /\ final (run (store_conversation_for_search container_repr self assistant_id conversation) w) = w
  /\ search_similar_conversations self assistant_id query limit = Return []
  /\ result (run (search_similar_conversations self assistant_id query limit) w) = []
  /\ calls (run (search_similar_conversations self assistant_id query limit) w) = [].
Proof.
  intros Hnone.
  unfold store_conversation_for_search, search_similar_conversations.
  rewrite Hnone. by repeat split.
Qed.

End NoSemanticStore.

Section Search.

Context {S : Type} `{Store S}.

(** C7. When a semantic store is configured, for every entity id, query
    and limit, [search_similar_conversations] sends one [search] for
    namespace [conversations, entityId] with that limit and returns the
    [value] fields of its results, in the same order; hence it returns
    at most [limit] results whenever the store's search does. *)
Theorem search_similar_projects_values self sem assistant_id query limit
    (w : StoreRef -> S) :
  semantic_store self = Some sem ->
  calls (run (search_similar_conversations self assistant_id query limit) w)
    = [Search sem ["conversations"; assistant_id] query limit]
  /\ result (run (search_similar_conversations self assistant_id query limit) w)
    = map value (store_search ["conversations"; assistant_id] query limit (w sem))
  /\ ((Z.of_nat (length (store_search ["conversations"; assistant_id] query limit (w sem)))
         <= limit)%Z ->
      (Z.of_nat (length (result (run (search_similar_conversations
                                        self assistant_id query limit) w)))
         <= limit)%Z).
Proof.
  intros Hsem. unfold search_similar_conversations. rewrite Hsem. simpl.
  repeat split. by rewrite length_map.
Qed.

(** The bundle built by [get_context_for_response], field by field. *)
Lemma context_fields (preferences : PyVal) (similar : list PyVal) (q : string) :
  let ctx : gmap string PyVal :=
    <["query" := PyStr q]>
    (<["relevant_conversations" := PyList similar]>
    (<["user_preferences" := preferences]> ∅)) in
  ctx !! "query" = Some (PyStr q)
  /\ ctx !! "relevant_conversations" = Some (PyList similar)
  /\ ctx !! "user_preferences" = Some preferences.
Proof.
  intros ctx. by repeat split.
Qed.

(** C3. For every entity id and query string,
    [get_context_for_response] returns a bundle whose [query] field is
    the input query and whose [relevant_conversations] sequence has at
    most 2 elements, provided the semantic store's search with limit 2
    returns at most 2 results. *)
Theorem context_query_and_bound self assistant_id user_query (w : StoreRef -> S) :
  search_respects_limit S 2 ->
  result (run (get_context_for_response self assistant_id user_query) w) !! "query"
    = Some (PyStr user_query)
  /\ exists similar,
      result (run (get_context_for_response self assistant_id user_query) w)
        !! "relevant_conversations" = Some (PyList similar)
      /\ length similar <= 2.
Proof.
  intros Hlim. unfold get_context_for_response, search_similar_conversations.
  destruct (semantic_store self) as [sem|]; simpl.
  - split; [apply context_fields|].
    eexists. split; [apply context_fields|].
    rewrite length_map.
    specialize (Hlim (w sem) ["conversations"; assistant_id] user_query). lia.
  - split; [apply context_fields|].
    eexists. split; [apply context_fields|]. simpl. lia.
Qed.

(** C8. For every configuration of the manager (semantic store present
    or absent), every entity id and every query,
    [get_context_for_response] is the sequencing of
    [get_user_preferences] and [search_similar_conversations] with
    limit 2: the two are the same program, so they send the same
    requests, and the [user_preferences] and [relevant_conversations]
    fields are the results of the two operations run one after the
    other. *)
Theorem context_is_sequencing self assistant_id user_query (w : StoreRef -> S) :
  get_context_for_response self assistant_id user_query
    = getContext_sequenced self assistant_id user_query
  /\ let prefs := run (get_user_preferences self assistant_id) w in
     let found := run (search_similar_conversations self assistant_id user_query 2)
                      (final prefs) in
     let ctx := run (get_context_for_response self assistant_id user_query) w in
     result ctx !! "user_preferences" = Some (result prefs)
     /\ result ctx !! "relevant_conversations" = Some (PyList (result found))
     /\ calls ctx = (calls prefs ++ calls found)%list
     /\ final ctx = final found.
Proof.
  unfold get_context_for_response, getContext_sequenced, search_similar_conversations.
  destruct (semantic_store self) as [sem|]; simpl.
  - split; [done|]. repeat split; apply context_fields.
  - split; [done|]. repeat split; apply context_fields.
Qed.

End Search.

Section Conversations.

Context {S : Type} `{Store S}.
Variable container_repr : PyVal -> string.

(** The fields of the dictionary that is written. *)
Lemma semantic_data_fields (conversation : gmap string PyVal) :
  semantic_data conversation !! "text"
    = Some (default (PyStr "") (conversation !! "text"))
  /\ semantic_data conversation !! "topics"
    = Some (default (PyList []) (conversation !! "topics"))
  /\ semantic_data conversation !! "timestamp"
    = Some (default PyNone (conversation !! "timestamp"))
  /\ semantic_data conversation !! "sentiment"
    = Some (default (PyStr "neutral") (conversation !! "sentiment"))
  /\ dom (semantic_data conversation)
    = ({["text"; "topics"; "timestamp"; "sentiment"]} : gset string).
Proof.
  unfold semantic_data, dict_get_none, dict_get.
  repeat split; try done; rewrite !dom_insert_L, dom_empty_L; set_solver.
Qed.

(** The key that is written, for the two cases the claim names. *)
Lemma conversation_key_cases (conversation : gmap string PyVal) :
  conversation_key container_repr conversation
    = "conv_" +:+ py_format container_repr
                    (default (PyStr "unknown") (conversation !! "id"))
  /\ (forall s, conversation !! "id" = Some (PyStr s) ->
        conversation_key container_repr conversation = "conv_" +:+ s)
  /\ (conversation !! "id" = None ->
        conversation_key container_repr conversation = "conv_unknown").
Proof.
  unfold conversation_key, dict_get. repeat split.
  - intros s Hs. by rewrite Hs.
  - intros Hnone. by rewrite Hnone.
Qed.

(** C6. When a semantic store is configured, for every entity id and
    input conversation mapping, [store_conversation_for_search] sends
    exactly one request: a [put] under namespace
    [conversations, entityId] with key ["conv_"] followed by the
    conversation's [id] (["unknown"] if absent), whose value holds the
    input's [text], [topics] (default: empty sequence), [timestamp] and
    [sentiment] (default: ["neutral"]) and nothing else. *)
Theorem store_conversation_writes_one_record self sem assistant_id conversation
    (w : StoreRef -> S) :
  semantic_store self = Some sem ->
  exists key data,
    calls (run (store_conversation_for_search container_repr self assistant_id
                  conversation) w)
      = [Put sem ["conversations"; assistant_id] key (PyDict data)]
    /\ final (run (store_conversation_for_search container_repr self assistant_id
                     conversation) w)
      = alter (store_put ["conversations"; assistant_id] key (PyDict data)) sem w
    /\ key = "conv_" +:+ py_format container_repr
                           (default (PyStr "unknown") (conversation !! "id"))
    /\ (forall s, conversation !! "id" = Some (PyStr s) -> key = "conv_" +:+ s)
    /\ (conversation !! "id" = None -> key = "conv_unknown")
    /\ data !! "text" = Some (default (PyStr "") (conversation !! "text"))
    /\ data !! "topics" = Some (default (PyList []) (conversation !! "topics"))
    /\ data !! "timestamp" = Some (default PyNone (conversation !! "timestamp"))
    /\ data !! "sentiment" = Some (default (PyStr "neutral") (conversation !! "sentiment"))
    /\ dom data = ({["text"; "topics"; "timestamp"; "sentiment"]} : gset string).
Proof.
  intros Hsem.
  exists (conversation_key container_repr conversation), (semantic_data conversation).
  unfold store_conversation_for_search. rewrite Hsem. simpl.
  split; [done|]. split; [done|].
  destruct (conversation_key_cases conversation) as (Hk & Hs & Hn).
  split; [done|]. split; [done|]. split; [done|].
  apply semantic_data_fields.
Qed.

(** C10. When a semantic store is configured, for every input
    conversation mapping [store_conversation_for_search] still writes a
    record when [text] or [timestamp] is missing: a missing [text] is
    stored as the empty string and a missing [timestamp] as [None]. *)
Theorem store_conversation_missing_fields self sem assistant_id conversation
    (w : StoreRef -> S) :
  semantic_store self = Some sem ->
  exists key data,
    calls (run (store_conversation_for_search container_repr self assistant_id
                  conversation) w)
      = [Put sem ["conversations"; assistant_id] key (PyDict data)]
    /\ (conversation !! "text" = None -> data !! "text" = Some (PyStr ""))
    /\ (conversation !! "timestamp" = None -> data !! "timestamp" = Some PyNone).
Proof.
  intros Hsem.
  exists (conversation_key container_repr conversation), (semantic_data conversation).
  unfold store_conversation_for_search. rewrite Hsem. simpl.
  destruct (semantic_data_fields conversation) as (Htext & _ & Htime & _).
  split; [done|]. split.
  - intros Hnone. by rewrite Htext, Hnone.
  - intros Hnone. by rewrite Htime, Hnone.
Qed.

End Conversations.

Section Frame.

Context {S : Type} `{Store S}.
Variable container_repr : PyVal -> string.

(** A [put] on one store object changes nothing that [get] can see
    under another namespace-and-key pair, on any store object. *)
Lemma alter_put_frame (w : StoreRef -> S) st ns k v st' ns' k' :
  put_frames_other_keys S ->
  (ns', k') <> (ns, k) ->
  store_get ns' k' (alter (store_put ns k v) st w st') = store_get ns' k' (w st').
Proof.
  intros Hframe Hne. destruct (decide (st = st')) as [->|Hst].
  - rewrite fn_lookup_alter. by apply Hframe.
  - by rewrite fn_lookup_alter_ne.
Qed.

(** C9. Every operation invoked for an entity id sends requests only for
    the namespaces [user_data, entityId] and [conversations, entityId].
    [get_user_preferences], [search_similar_conversations] and
    [get_context_for_response] send no [put] and leave every store
    object as it was.  After [store_user_preferences] and
    [store_conversation_for_search], what [get] returns for every
    namespace-and-key pair other than the one written is unchanged, in
    both stores, for stores whose [put] leaves other pairs alone. *)
Theorem operations_confined_to_entity self assistant_id preferences conversation
    query limit (w : StoreRef -> S) :
  let mine := fun c => namespace_of_entity assistant_id (request_namespace c) in
  let reads := fun c => is_write c = false in
  (every_request mine (store_user_preferences self assistant_id preferences)
   /\ every_request mine (get_user_preferences self assistant_id)
   /\ every_request mine (store_conversation_for_search container_repr self
                            assistant_id conversation)
   /\ every_request mine (search_similar_conversations self assistant_id query limit)
   /\ every_request mine (get_context_for_response self assistant_id query))
  /\ (every_request reads (get_user_preferences self assistant_id)
      /\ every_request reads (search_similar_conversations self assistant_id query limit)
      /\ every_request reads (get_context_for_response self assistant_id query))
  /\ (final (run (get_user_preferences self assistant_id) w) = w
      /\ final (run (search_similar_conversations self assistant_id query limit) w) = w
      /\ final (run (get_context_for_response self assistant_id query) w) = w)
  /\ (put_frames_other_keys S -> forall st ns k,
        (ns, k) <> (["user_data"; assistant_id], "preferences") ->
        store_get ns k
          (final (run (store_user_preferences self assistant_id preferences) w) st)
        = store_get ns k (w st))
  /\ (put_frames_other_keys S -> forall st ns k,
        (ns, k) <> (["conversations"; assistant_id],
                    conversation_key container_repr conversation) ->
        store_get ns k
          (final (run (store_conversation_for_search container_repr self
                         assistant_id conversation) w) st)
        = store_get ns k (w st)).
Proof.
  intros mine reads. subst mine reads.
  unfold get_context_for_response, store_conversation_for_search,
    search_similar_conversations, namespace_of_entity.
  destruct (semantic_store self) as [sem|]; simpl;
    repeat split; auto;
    intros Hframe st ns k Hne; by apply alter_put_frame.
Qed.

End Frame.

Section WriteKeys.

Context {S : Type} `{Store S}.
Variable container_repr : PyVal -> string.

(** The pair [store_user_preferences] writes. *)
Lemma writes_store_user_preferences self assistant_id preferences (w : StoreRef -> S) :
  writes (run (store_user_preferences self assistant_id preferences) w)
  = [(["user_data"; assistant_id], "preferences")].
Proof. reflexivity. Qed.

(** The pair [store_conversation_for_search] writes. *)
Lemma writes_store_conversation self sem assistant_id conversation (w : StoreRef -> S) :
  semantic_store self = Some sem ->
  writes (run (store_conversation_for_search container_repr self assistant_id
                 conversation) w)
  = [(["conversations"; assistant_id],
      "conv_" +:+ py_format container_repr
                    (default (PyStr "unknown") (conversation !! "id")))].
Proof.
  intros Hsem. unfold store_conversation_for_search. by rewrite Hsem.
Qed.

(** C4, as the code has it.  Every write of the manager is one [put]
    whose namespace-and-key pair is fixed by the arguments of the call:
    key ["preferences"] under [user_data, entityId] for
    [store_user_preferences], key ["conv_"] followed by the rendered
    conversation id under [conversations, entityId] for
    [store_conversation_for_search].  Hence two calls of
    [store_user_preferences] write to the same pair exactly when their
    entity ids are equal, two calls of [store_conversation_for_search]
    exactly when their entity ids and rendered conversation ids are
    equal, and a call of the one never writes to the pair of a call of
    the other. *)
Theorem write_keys_fixed_by_arguments self sem id1 id2 prefs1 prefs2 conv1 conv2
    (w1 w2 : StoreRef -> S) :
  semantic_store self = Some sem ->
  let rendered_id := fun conv : gmap string PyVal =>
    py_format container_repr (default (PyStr "unknown") (conv !! "id")) in
  writes (run (store_user_preferences self id1 prefs1) w1)
    = [(["user_data"; id1], "preferences")]
  /\ writes (run (store_conversation_for_search container_repr self id1 conv1) w1)
    = [(["conversations"; id1], "conv_" +:+ rendered_id conv1)]
  /\ (writes (run (store_user_preferences self id1 prefs1) w1)
      = writes (run (store_user_preferences self id2 prefs2) w2)
      <-> id1 = id2)
  /\ (writes (run (store_conversation_for_search container_repr self id1 conv1) w1)
      = writes (run (store_conversation_for_search container_repr self id2 conv2) w2)
      <-> id1 = id2 /\ rendered_id conv1 = rendered_id conv2)
  /\ (forall pair,
        pair ∈ writes (run (store_user_preferences self id1 prefs1) w1) ->
        pair ∉ writes (run (store_conversation_for_search container_repr self
                              id2 conv2) w2)).
Proof.
  intros Hsem rendered_id. subst rendered_id.
  rewrite !writes_store_user_preferences.
  rewrite !(writes_store_conversation self sem) by done.
  split; [done|]. split; [done|]. split; [|split].
  - split; [intros Heq; by simplify_eq | by intros ->].
  - split.
    + intros Heq. simplify_eq. done.
    + by intros [-> ->].
  - intros pair Hin Hin'.
    apply list_elem_of_singleton in Hin, Hin'. simplify_eq.
Qed.

End WriteKeys.

(** * The properties at concrete inputs *)

(** The scenario of the specification: an in-memory structured store and
    no semantic store. *)
Example scenario_preferences_then_search :
  let self := mkManager 0 None in
  let o := run (store_user_preferences self "e1" {[ "theme" := PyStr "dark" ]};;
                prefs ← get_user_preferences self "e1";
                found ← search_similar_conversations self "e1" "anything" default_limit;
                mret (prefs, found)) InMemoryStore.empty in
  result o = (PyDict {[ "theme" := PyStr "dark" ]}, [])
  /\ calls o = [Put 0 ["user_data"; "e1"] "preferences" (PyDict {[ "theme" := PyStr "dark" ]});
                Get 0 ["user_data"; "e1"] "preferences"].
Proof. by split. Qed.

(** An integer conversation id is rendered in decimal. *)
Example conversation_key_of_integer_id :
  conversation_key no_container_repr {[ "id" := PyInt 42 ]} = "conv_42".
Proof. reflexivity. Qed.

Lemma get_after_store_preferences_witness :
  get_returns_last_put InMemoryStore.t
  /\ result (run (store_user_preferences (mkManager 0 None) "e1"
                    {[ "theme" := PyStr "dark" ]};;
                  get_user_preferences (mkManager 0 None) "e1") InMemoryStore.empty)
     = PyDict {[ "theme" := PyStr "dark" ]}.
Proof.
  split; [exact InMemoryStoreFacts.get_put_same|].
  apply get_after_store_preferences. exact InMemoryStoreFacts.get_put_same.
Defined.

Lemma get_preferences_without_record_witness :
  store_get ["user_data"; "e1"] "preferences" (InMemoryStore.empty 0) = None
  /\ result (run (get_user_preferences (mkManager 0 (Some 1)) "e1") InMemoryStore.empty)
     = PyDict ∅.
Proof.
  split; [reflexivity|].
  apply (get_preferences_without_record (mkManager 0 (Some 1)) "e1" InMemoryStore.empty).
  reflexivity.
Defined.

Lemma no_semantic_store_is_noop_witness :
  semantic_store (mkManager 0 None) = None
  /\ store_conversation_for_search no_container_repr (mkManager 0 None) "e1"
       {[ "id" := PyStr "c1"; "text" := PyStr "hello" ]} = Return tt
  /\ search_similar_conversations (mkManager 0 None) "e1" "hello" 3 = Return [].
Proof.
  split; [reflexivity|].
  destruct (no_semantic_store_is_noop no_container_repr (mkManager 0 None) "e1"
              {[ "id" := PyStr "c1"; "text" := PyStr "hello" ]} "hello" 3
              InMemoryStore.empty eq_refl) as (Hstore & _ & _ & Hsearch & _).
  exact (conj Hstore Hsearch).
Defined.

Lemma search_similar_projects_values_witness :
  semantic_store (mkManager 0 (Some 1)) = Some 1
  /\ result (run (search_similar_conversations (mkManager 0 (Some 1)) "e1" "alpha" 2)
               three_conversations)
     = [PyDict {[ "text" := PyStr "alpha" ]}; PyDict {[ "text" := PyStr "beta" ]}].
Proof.
  split; [reflexivity|].
  destruct (search_similar_projects_values (mkManager 0 (Some 1)) 1 "e1" "alpha" 2
              three_conversations eq_refl) as (_ & Hres & _).
  rewrite Hres. reflexivity.
Defined.

Lemma context_query_and_bound_witness :
  search_respects_limit InMemoryStore.t 2
  /\ result (run (get_context_for_response (mkManager 0 (Some 1)) "e1" "alpha")
               three_conversations) !! "query" = Some (PyStr "alpha")
  /\ exists similar,
      result (run (get_context_for_response (mkManager 0 (Some 1)) "e1" "alpha")
                three_conversations) !! "relevant_conversations" = Some (PyList similar)
      /\ length similar <= 2.
Proof.
  assert (Hlim : search_respects_limit InMemoryStore.t 2)
    by (apply InMemoryStoreFacts.search_limit; lia).
  split; [exact Hlim|].
  exact (context_query_and_bound (mkManager 0 (Some 1)) "e1" "alpha"
           three_conversations Hlim).
Defined.

Lemma store_conversation_writes_one_record_witness :
  semantic_store (mkManager 0 (Some 1)) = Some 1
  /\ exists key data,
      calls (run (store_conversation_for_search no_container_repr (mkManager 0 (Some 1))
                    "e1" {[ "id" := PyStr "c1"; "text" := PyStr "hello" ]})
               InMemoryStore.empty)
        = [Put 1 ["conversations"; "e1"] key (PyDict data)]
      /\ key = "conv_c1"
      /\ data !! "text" = Some (PyStr "hello")
      /\ data !! "topics" = Some (PyList [])
      /\ data !! "sentiment" = Some (PyStr "neutral").
Proof.
  split; [reflexivity|].
  destruct (store_conversation_writes_one_record no_container_repr
              (mkManager 0 (Some 1)) 1 "e1"
              {[ "id" := PyStr "c1"; "text" := PyStr "hello" ]}
              InMemoryStore.empty eq_refl)
    as (key & data & Hcalls & _ & Hkey & _ & _ & Htext & Htopics & _ & Hsent & _).
  exists key, data. repeat split; assumption.
Defined.

Lemma store_conversation_missing_fields_witness :
  semantic_store (mkManager 0 (Some 1)) = Some 1
  /\ exists key data,
      calls (run (store_conversation_for_search no_container_repr (mkManager 0 (Some 1))
                    "e1" {[ "id" := PyStr "c1" ]}) InMemoryStore.empty)
        = [Put 1 ["conversations"; "e1"] key (PyDict data)]
      /\ data !! "text" = Some (PyStr "")
      /\ data !! "timestamp" = Some PyNone.
Proof.
  split; [reflexivity|].
  destruct (store_conversation_missing_fields no_container_repr
              (mkManager 0 (Some 1)) 1 "e1" {[ "id" := PyStr "c1" ]}
              InMemoryStore.empty eq_refl)
    as (key & data & Hcalls & Htext & Htime).
  exists key, data. repeat split;
    [exact Hcalls | apply Htext; reflexivity | apply Htime; reflexivity].
Defined.

Lemma operations_confined_to_entity_witness :
  put_frames_other_keys InMemoryStore.t
  /\ store_get ["conversations"; "e2"] "conv_x"
       (final (run (store_conversation_for_search no_container_repr
                      (mkManager 0 (Some 1)) "e1" {[ "id" := PyStr "x" ]})
                 three_conversations) 1)
     = store_get ["conversations"; "e2"] "conv_x" (three_conversations 1).
Proof.
  split; [exact InMemoryStoreFacts.get_put_other|].
  destruct (operations_confined_to_entity no_container_repr (mkManager 0 (Some 1)) "e1"
              ∅ {[ "id" := PyStr "x" ]} "alpha" 2 three_conversations)
    as (_ & _ & _ & _ & Hconv).
  apply Hconv; [exact InMemoryStoreFacts.get_put_other | discriminate].
Defined.

Lemma write_keys_fixed_by_arguments_witness :
  semantic_store (mkManager 0 (Some 1)) = Some 1
  /\ writes (run (store_conversation_for_search no_container_repr (mkManager 0 (Some 1))
                    "e1" {[ "id" := PyStr "c1" ]}) InMemoryStore.empty)
     = [(["conversations"; "e1"], "conv_c1")].
Proof.
  split; [reflexivity|].
  exact (proj1 (proj2 (write_keys_fixed_by_arguments no_container_repr
                         (mkManager 0 (Some 1)) 1 "e1" "e1" ∅ ∅
                         {[ "id" := PyStr "c1" ]} {[ "id" := PyStr "c1" ]}
                         InMemoryStore.empty InMemoryStore.empty eq_refl))).
Defined.

(** C4 as stated fails: two calls of [store_user_preferences] for the
    same entity write to the same namespace-and-key pair, and the second
    replaces the record of the first (the store still holds one item,
    with the new value). *)
Lemma second_preferences_write_replaces_first :
  let self := mkManager 0 None in
  let first := run (store_user_preferences self "e1" {[ "theme" := PyStr "dark" ]})
                   InMemoryStore.empty in
  let second := run (store_user_preferences self "e1" {[ "theme" := PyStr "light" ]})
                    (final first) in
  writes first = [(["user_data"; "e1"], "preferences")]
  /\ writes second = writes first
  /\ final first 0
     = [mkItem ["user_data"; "e1"] "preferences" (PyDict {[ "theme" := PyStr "dark" ]})]
  /\ final second 0
     = [mkItem ["user_data"; "e1"] "preferences" (PyDict {[ "theme" := PyStr "light" ]})].
Proof. by repeat split. Qed.


(** * Further properties: how the operations compose *)

Section PreferencesCompose.

Context {S : Type} `{Store S}.
Variable container_repr : PyVal -> string.

(** X1. Writing the preferences of one entity does not change what
    [get_user_preferences] returns for another entity, for stores whose
    [put] leaves other namespace-and-key pairs alone. *)
Theorem preferences_isolated_between_entities self id1 id2 preferences
    (w : StoreRef -> S) :
  put_frames_other_keys S ->
  id1 <> id2 ->
  result (run (store_user_preferences self id1 preferences;;
               get_user_preferences self id2) w)
  = result (run (get_user_preferences self id2) w).
Proof.
  intros Hframe Hne. simpl. rewrite fn_lookup_alter.
  rewrite Hframe; [done|]. intros [= Heq]. by apply Hne.
Qed.

(** X2. Of two preference writes for the same entity the later one is read
    back, for stores whose [get] returns the last value [put]. *)
Theorem last_preferences_write_wins self assistant_id prefs1 prefs2
    (w : StoreRef -> S) :
  get_returns_last_put S ->
  result (run (store_user_preferences self assistant_id prefs1;;
               store_user_preferences self assistant_id prefs2;;
               get_user_preferences self assistant_id) w)
  = PyDict prefs2.
Proof.
  intros Hlast. simpl. rewrite !fn_lookup_alter.
  destruct (Hlast (store_put ["user_data"; assistant_id] "preferences" (PyDict prefs1)
                     (w (regular_store self)))
              ["user_data"; assistant_id] "preferences" (PyDict prefs2))
    as (it & Hget & Hval).
  by rewrite Hget.
Qed.

(** X3. Storing a conversation, for any entity and with any conversation id,
    does not change what [get_user_preferences] returns, also when one
    store object serves as both stores; for stores whose [put] leaves
    other namespace-and-key pairs alone. *)
Theorem conversation_write_keeps_preferences self id_conv id_prefs conversation
    (w : StoreRef -> S) :
  put_frames_other_keys S ->
  result (run (store_conversation_for_search container_repr self id_conv conversation;;
               get_user_preferences self id_prefs) w)
  = result (run (get_user_preferences self id_prefs) w).
Proof.
  intros Hframe. unfold store_conversation_for_search.
  destruct (semantic_store self) as [sem|]; simpl; [|done].
  rewrite alter_put_frame; [done | done | intros [=]].
Qed.


(** X5. The preferences just stored are the [user_preferences] field of the
    context bundle, for stores whose [get] returns the last value [put]. *)
Theorem preferences_visible_in_context self assistant_id preferences user_query
    (w : StoreRef -> S) :
  get_returns_last_put S ->
  result (run (store_user_preferences self assistant_id preferences;;
               get_context_for_response self assistant_id user_query) w)
    !! "user_preferences"
  = Some (PyDict preferences).
Proof.
  intros Hlast. unfold get_context_for_response, search_similar_conversations.
  destruct (Hlast (w (regular_store self)) ["user_data"; assistant_id]
              "preferences" (PyDict preferences)) as (it & Hget & Hval).
  destruct (semantic_store self) as [sem|]; simpl;
    rewrite fn_lookup_alter, Hget, Hval; apply context_fields.
Qed.

End PreferencesCompose.

Section ContextShape.

Context {S : Type} `{Store S}.

(** X6. With no semantic store [get_context_for_response] sends one request,
    the [get] of the preferences, and its [relevant_conversations] field
    is the empty list; the stores are left as they were. *)
Theorem context_without_semantic_store self assistant_id user_query
    (w : StoreRef -> S) :
  semantic_store self = None ->
  calls (run (get_context_for_response self assistant_id user_query) w)
    = [Get (regular_store self) ["user_data"; assistant_id] "preferences"]
  /\ result (run (get_context_for_response self assistant_id user_query) w)
       !! "relevant_conversations" = Some (PyList [])
  /\ final (run (get_context_for_response self assistant_id user_query) w) = w.
Proof.
  intros Hnone. unfold get_context_for_response. rewrite Hnone. simpl.
  split; [done|]. split; [apply context_fields | done].
Qed.

(** X7. With a semantic store [get_context_for_response] sends two requests,
    first the [get] of the preferences on the regular store, then one
    [search] with limit 2 on the semantic store, and its
    [relevant_conversations] field holds the [value] of each search
    result, in order. *)
Theorem context_requests_with_semantic_store self sem assistant_id user_query
    (w : StoreRef -> S) :
  semantic_store self = Some sem ->
  calls (run (get_context_for_response self assistant_id user_query) w)
    = [Get (regular_store self) ["user_data"; assistant_id] "preferences";
       Search sem ["conversations"; assistant_id] user_query 2]
  /\ result (run (get_context_for_response self assistant_id user_query) w)
       !! "relevant_conversations"
     = Some (PyList (map value
                       (store_search ["conversations"; assistant_id] user_query 2 (w sem)))).
Proof.
  intros Hsem. unfold get_context_for_response, search_similar_conversations.
  rewrite Hsem. simpl. split; [done|]. apply context_fields.
Qed.

(** X8. Whatever the configuration and whatever the stores answer, the bundle
    has exactly the three keys [user_preferences],
    [relevant_conversations] and [query]. *)
Theorem context_has_three_fields self assistant_id user_query (w : StoreRef -> S) :
  dom (result (run (get_context_for_response self assistant_id user_query) w))
  = ({["user_preferences"; "relevant_conversations"; "query"]} : gset string).
Proof.
  unfold get_context_for_response, search_similar_conversations.
  destruct (semantic_store self) as [sem|]; simpl;
    rewrite !dom_insert_L, dom_empty_L; set_solver.
Qed.

(** X9. For an entity without a preference record and a manager without
    semantic store, the bundle is
    [{user_preferences: {}, relevant_conversations: [], query: q}]. *)
Theorem context_of_unknown_entity self assistant_id user_query (w : StoreRef -> S) :
  semantic_store self = None ->
  store_get ["user_data"; assistant_id] "preferences" (w (regular_store self)) = None ->
  result (run (get_context_for_response self assistant_id user_query) w)
  = {[ "user_preferences" := PyDict ∅;
       "relevant_conversations" := PyList [];
       "query" := PyStr user_query ]}.
Proof.
  intros Hnone Hget. unfold get_context_for_response. rewrite Hnone. simpl.
  rewrite Hget. apply map_eq. intros k.
  destruct (decide (k = "query")) as [->|Hq]; [by simplify_map_eq|].
  destruct (decide (k = "relevant_conversations")) as [->|Hr]; [by simplify_map_eq|].
  destruct (decide (k = "user_preferences")) as [->|Hu]; by simplify_map_eq.
Qed.

End ContextShape.

Section EntityConfinement.

Variable container_repr : PyVal -> string.

(** A namespace belongs to at most one entity. *)
Lemma namespace_of_one_entity id1 id2 ns :
  namespace_of_entity id1 ns -> namespace_of_entity id2 ns -> id1 = id2.
Proof. intros [-> | ->] [Heq | Heq]; by simplify_eq. Qed.

(** X10. No operation invoked for one entity sends a request that names a
    namespace of another entity, whatever the stores answer. *)
Theorem requests_never_name_other_entities self id1 id2 preferences conversation
    query limit :
  id1 <> id2 ->
  let foreign := fun c => ~ namespace_of_entity id2 (request_namespace c) in
  every_request foreign (store_user_preferences self id1 preferences)
  /\ every_request foreign (get_user_preferences self id1)
  /\ every_request foreign (store_conversation_for_search container_repr self id1
                              conversation)
  /\ every_request foreign (search_similar_conversations self id1 query limit)
  /\ every_request foreign (get_context_for_response self id1 query).
Proof.
  intros Hne foreign. subst foreign.
  assert (Hpref : ~ namespace_of_entity id2 ["user_data"; id1])
    by (intros Hin; apply Hne; eapply namespace_of_one_entity; [by left | done]).
  assert (Hconv : ~ namespace_of_entity id2 ["conversations"; id1])
    by (intros Hin; apply Hne; eapply namespace_of_one_entity; [by right | done]).
  unfold get_context_for_response, store_conversation_for_search,
    search_similar_conversations.
  destruct (semantic_store self) as [sem|]; simpl; repeat split; auto.
Qed.

End EntityConfinement.

Section ConversationsCompose.

Context {S : Type} `{Store S}.
Variable container_repr : PyVal -> string.

(** X11. Filling in the defaults twice is filling them in once: the dictionary
    that is written needs no further defaults, and passing it as the
    conversation writes the same value again. *)
Theorem semantic_data_idempotent (conversation : gmap string PyVal) :
  semantic_data (semantic_data conversation) = semantic_data conversation.
Proof.
  destruct (semantic_data_fields conversation) as (Htext & Htopics & Htime & Hsent & _).
  unfold semantic_data at 1. unfold dict_get_none, dict_get.
  rewrite Htext, Htopics, Htime, Hsent. simpl.
  unfold semantic_data, dict_get_none, dict_get. reflexivity.
Qed.

(** The state of the semantic store object after two conversation writes. *)
Lemma final_two_conversation_writes self sem id1 id2 conv1 conv2 (w : StoreRef -> S) :
  semantic_store self = Some sem ->
  final (run (store_conversation_for_search container_repr self id1 conv1;;
              store_conversation_for_search container_repr self id2 conv2) w) sem
  = store_put ["conversations"; id2] (conversation_key container_repr conv2)
      (PyDict (semantic_data conv2))
      (store_put ["conversations"; id1] (conversation_key container_repr conv1)
         (PyDict (semantic_data conv1)) (w sem)).
Proof.
  intros Hsem. unfold store_conversation_for_search. rewrite Hsem. simpl.
  by rewrite !fn_lookup_alter.
Qed.

(** X12. Conversations without an [id] all go to the key ["conv_unknown"]: of
    two such writes for the same entity, the record left under that key
    is the second one, for stores whose [get] returns the last value
    [put]. *)
Theorem conversations_without_id_overwrite self sem assistant_id conv1 conv2
    (w : StoreRef -> S) :
  get_returns_last_put S ->
  semantic_store self = Some sem ->
  conv1 !! "id" = None ->
  conv2 !! "id" = None ->
  writes (run (store_conversation_for_search container_repr self assistant_id conv1;;
               store_conversation_for_search container_repr self assistant_id conv2) w)
    = [(["conversations"; assistant_id], "conv_unknown");
       (["conversations"; assistant_id], "conv_unknown")]
  /\ value <$> store_get ["conversations"; assistant_id] "conv_unknown"
       (final (run (store_conversation_for_search container_repr self assistant_id conv1;;
                    store_conversation_for_search container_repr self assistant_id conv2)
                 w) sem)
     = Some (PyDict (semantic_data conv2)).
Proof.
  intros Hlast Hsem Hid1 Hid2.
  destruct (conversation_key_cases container_repr conv1) as (_ & _ & Hk1).
  destruct (conversation_key_cases container_repr conv2) as (_ & _ & Hk2).
  specialize (Hk1 Hid1). specialize (Hk2 Hid2).
  rewrite final_two_conversation_writes by done.
  rewrite Hk1, Hk2. split.
  - unfold store_conversation_for_search, writes. rewrite Hsem. simpl.
    by rewrite Hk1, Hk2.
  - destruct (Hlast (store_put ["conversations"; assistant_id] "conv_unknown"
                       (PyDict (semantic_data conv1)) (w sem))
                ["conversations"; assistant_id] "conv_unknown"
                (PyDict (semantic_data conv2))) as (it & Hget & Hval).
    rewrite Hget. simpl. by rewrite Hval.
Qed.

(** X13. Conversations with different string ids, or of different entities, do
    not overwrite one another: after the second write the record of the
    first is still under its key, for stores whose [get] returns the last
    value [put] and whose [put] leaves other pairs alone. *)
Theorem conversations_with_distinct_ids_coexist self sem id1 id2 conv1 conv2 s1 s2
    (w : StoreRef -> S) :
  get_returns_last_put S ->
  put_frames_other_keys S ->
  semantic_store self = Some sem ->
  conv1 !! "id" = Some (PyStr s1) ->
  conv2 !! "id" = Some (PyStr s2) ->
  id1 <> id2 \/ s1 <> s2 ->
  value <$> store_get ["conversations"; id1] ("conv_" +:+ s1)
    (final (run (store_conversation_for_search container_repr self id1 conv1;;
                 store_conversation_for_search container_repr self id2 conv2) w) sem)
  = Some (PyDict (semantic_data conv1)).
Proof.
  intros Hlast Hframe Hsem Hid1 Hid2 Hne.
  destruct (conversation_key_cases container_repr conv1) as (_ & Hk1 & _).
  destruct (conversation_key_cases container_repr conv2) as (_ & Hk2 & _).
  specialize (Hk1 s1 Hid1). specialize (Hk2 s2 Hid2).
  rewrite final_two_conversation_writes by done.
  rewrite Hk1, Hk2.
  rewrite Hframe.
  - destruct (Hlast (w sem) ["conversations"; id1] ("conv_" +:+ s1)
                (PyDict (semantic_data conv1))) as (it & Hget & Hval).
    rewrite Hget. simpl. by rewrite Hval.
  - intros Heq. simplify_eq. destruct Hne as [Hne | Hne]; by apply Hne.
Qed.

End ConversationsCompose.

(** ** The further properties at concrete inputs *)

Lemma preferences_isolated_between_entities_witness :
  put_frames_other_keys InMemoryStore.t
  /\ "e1" <> "e2"
  /\ result (run (store_user_preferences (mkManager 0 None) "e1"
                    {[ "theme" := PyStr "dark" ]};;
                  get_user_preferences (mkManager 0 None) "e2") InMemoryStore.empty)
     = PyDict ∅.
Proof.
  split; [exact InMemoryStoreFacts.get_put_other|]. split; [discriminate|].
  rewrite (preferences_isolated_between_entities (mkManager 0 None) "e1" "e2"
             {[ "theme" := PyStr "dark" ]} InMemoryStore.empty
             InMemoryStoreFacts.get_put_other); [reflexivity | discriminate].
Defined.

Lemma last_preferences_write_wins_witness :
  get_returns_last_put InMemoryStore.t
  /\ result (run (store_user_preferences (mkManager 0 None) "e1"
                    {[ "theme" := PyStr "dark" ]};;
                  store_user_preferences (mkManager 0 None) "e1"
                    {[ "theme" := PyStr "light" ]};;
                  get_user_preferences (mkManager 0 None) "e1") InMemoryStore.empty)
     = PyDict {[ "theme" := PyStr "light" ]}.
Proof.
  split; [exact InMemoryStoreFacts.get_put_same|].
  apply last_preferences_write_wins. exact InMemoryStoreFacts.get_put_same.
Defined.

(** One store object serving as both stores. *)
Lemma conversation_write_keeps_preferences_witness :
  put_frames_other_keys InMemoryStore.t
  /\ result (run (store_conversation_for_search no_container_repr
                    (mkManager 0 (Some 0)) "e1" {[ "id" := PyStr "c1" ]};;
                  get_user_preferences (mkManager 0 (Some 0)) "e1") InMemoryStore.empty)
     = PyDict ∅.
Proof.
  split; [exact InMemoryStoreFacts.get_put_other|].
  rewrite (conversation_write_keeps_preferences no_container_repr
             (mkManager 0 (Some 0)) "e1" "e1" {[ "id" := PyStr "c1" ]}
             InMemoryStore.empty InMemoryStoreFacts.get_put_other).
  reflexivity.
Defined.


Lemma preferences_visible_in_context_witness :
  get_returns_last_put InMemoryStore.t
  /\ result (run (store_user_preferences (mkManager 0 (Some 1)) "e1"
                    {[ "theme" := PyStr "dark" ]};;
                  get_context_for_response (mkManager 0 (Some 1)) "e1" "alpha")
               three_conversations) !! "user_preferences"
     = Some (PyDict {[ "theme" := PyStr "dark" ]}).
Proof.
  split; [exact InMemoryStoreFacts.get_put_same|].
  apply preferences_visible_in_context. exact InMemoryStoreFacts.get_put_same.
Defined.

Lemma context_without_semantic_store_witness :
  semantic_store (mkManager 0 None) = None
  /\ calls (run (get_context_for_response (mkManager 0 None) "e1" "alpha")
              three_conversations)
     = [Get 0 ["user_data"; "e1"] "preferences"].
Proof.
  split; [reflexivity|].
  exact (proj1 (context_without_semantic_store (mkManager 0 None) "e1" "alpha"
                  three_conversations eq_refl)).
Defined.

Lemma context_requests_with_semantic_store_witness :
  semantic_store (mkManager 0 (Some 1)) = Some 1
  /\ calls (run (get_context_for_response (mkManager 0 (Some 1)) "e1" "alpha")
              three_conversations)
     = [Get 0 ["user_data"; "e1"] "preferences";
        Search 1 ["conversations"; "e1"] "alpha" 2].
Proof.
  split; [reflexivity|].
  exact (proj1 (context_requests_with_semantic_store (mkManager 0 (Some 1)) 1 "e1"
                  "alpha" three_conversations eq_refl)).
Defined.

Lemma context_of_unknown_entity_witness :
  semantic_store (mkManager 0 None) = None
  /\ store_get ["user_data"; "e9"] "preferences" (three_conversations 0) = None
  /\ result (run (get_context_for_response (mkManager 0 None) "e9" "alpha")
               three_conversations)
     = {[ "user_preferences" := PyDict ∅;
          "relevant_conversations" := PyList [];
          "query" := PyStr "alpha" ]}.
Proof.
  split; [reflexivity|]. split; [reflexivity|].
  apply (context_of_unknown_entity (mkManager 0 None) "e9" "alpha" three_conversations);
    reflexivity.
Defined.

Lemma requests_never_name_other_entities_witness :
  "e1" <> "e2"
  /\ every_request (fun c => ~ namespace_of_entity "e2" (request_namespace c))
       (get_context_for_response (mkManager 0 (Some 1)) "e1" "alpha").
Proof.
  assert (Hne : "e1" <> "e2") by discriminate.
  split; [exact Hne|].
  destruct (requests_never_name_other_entities no_container_repr
              (mkManager 0 (Some 1)) "e1" "e2" ∅ ∅ "alpha" 2 Hne)
    as (_ & _ & _ & _ & Hctx).
  exact Hctx.
Defined.

Lemma conversations_without_id_overwrite_witness :
  get_returns_last_put InMemoryStore.t
  /\ semantic_store (mkManager 0 (Some 1)) = Some 1
  /\ ({[ "text" := PyStr "first" ]} : gmap string PyVal) !! "id" = None
  /\ ({[ "text" := PyStr "second" ]} : gmap string PyVal) !! "id" = None
  /\ value <$> store_get ["conversations"; "e1"] "conv_unknown"
       (final (run (store_conversation_for_search no_container_repr
                      (mkManager 0 (Some 1)) "e1" {[ "text" := PyStr "first" ]};;
                    store_conversation_for_search no_container_repr
                      (mkManager 0 (Some 1)) "e1" {[ "text" := PyStr "second" ]})
                 InMemoryStore.empty) 1)
     = Some (PyDict (semantic_data {[ "text" := PyStr "second" ]})).
Proof.
  split; [exact InMemoryStoreFacts.get_put_same|].
  split; [reflexivity|]. split; [reflexivity|]. split; [reflexivity|].
  exact (proj2 (conversations_without_id_overwrite no_container_repr
                  (mkManager 0 (Some 1)) 1 "e1"
                  {[ "text" := PyStr "first" ]} {[ "text" := PyStr "second" ]}
                  InMemoryStore.empty InMemoryStoreFacts.get_put_same
                  eq_refl eq_refl eq_refl)).
Defined.

Lemma conversations_with_distinct_ids_coexist_witness :
  get_returns_last_put InMemoryStore.t
  /\ put_frames_other_keys InMemoryStore.t
  /\ semantic_store (mkManager 0 (Some 1)) = Some 1
  /\ ({[ "id" := PyStr "a" ]} : gmap string PyVal) !! "id" = Some (PyStr "a")
  /\ ({[ "id" := PyStr "b" ]} : gmap string PyVal) !! "id" = Some (PyStr "b")
  /\ ("e1" <> "e1" \/ "a" <> "b")
  /\ value <$> store_get ["conversations"; "e1"] "conv_a"
       (final (run (store_conversation_for_search no_container_repr
                      (mkManager 0 (Some 1)) "e1" {[ "id" := PyStr "a" ]};;
                    store_conversation_for_search no_container_repr
                      (mkManager 0 (Some 1)) "e1" {[ "id" := PyStr "b" ]})
                 InMemoryStore.empty) 1)
     = Some (PyDict (semantic_data {[ "id" := PyStr "a" ]})).
Proof.
  assert (Hne : "e1" <> "e1" \/ "a" <> "b") by (right; discriminate).
  split; [exact InMemoryStoreFacts.get_put_same|].
  split; [exact InMemoryStoreFacts.get_put_other|].
  split; [reflexivity|]. split; [reflexivity|]. split; [reflexivity|].
  split; [exact Hne|].
  exact (conversations_with_distinct_ids_coexist no_container_repr
           (mkManager 0 (Some 1)) 1 "e1" "e1"
           {[ "id" := PyStr "a" ]} {[ "id" := PyStr "b" ]} "a" "b"
           InMemoryStore.empty InMemoryStoreFacts.get_put_same
           InMemoryStoreFacts.get_put_other eq_refl eq_refl eq_refl Hne).
Defined.
